(** * The addon selection view of OpenAndroidInstaller

    A shallow embedding of [AddonsView] from
    [openandroidinstaller/views/addon_view.py]: the result handler of the
    file picker ([pick_addons_result]) and the wiring that [build] sets up
    (the label, the pick trigger and the confirm button).

    The widget object is mutated in place by the Python code, so the
    embedding threads the object's fields through a state monad; the list
    that the handler allocates is shared between the view and the
    application state, so list objects live in a heap and both fields hold
    a reference to the same object. *)

From Stdlib Require Import String Ascii List Bool Arith Lia.
From ExtLib Require Import Structures.Monad Structures.MonadState.
From ExtLib Require Import Data.Monads.StateMonad.
Import ListNotations.
Import MonadNotation.
Local Open Scope monad_scope.
Local Open Scope string_scope.

(** ** Python [str] operations used by the view *)

Module PyStr.

(** [s.split(sep)] for a separator of one character, as the first field
    and the remaining fields: the result of [split] is never empty. *)
Fixpoint split_fields (sep : ascii) (s : string) : string * list string :=
  match s with
  | EmptyString => (EmptyString, [])
  | String c s' =>
      let (w, ws) := split_fields sep s' in
      if Ascii.eqb c sep then (EmptyString, w :: ws)
      else (String c w, ws)
  end.

Definition split (sep : ascii) (s : string) : list string :=
  let (w, ws) := split_fields sep s in w :: ws.

(** [l[0]]; the default is never used on a result of [split]. *)
Definition item0 (l : list string) : string := hd EmptyString l.

(** [sep.join(l)] *)
Definition join (sep : string) (l : list string) : string :=
  String.concat sep l.

(** [c in s] for a character [c]. *)
Fixpoint occurs (c : ascii) (s : string) : bool :=
  match s with
  | EmptyString => false
  | String d s' => Ascii.eqb d c || occurs c s'
  end.

End PyStr.

Import PyStr.

(** ** The picker's result event (flet) *)

Module FilePickerFile.

(** A chosen file: its display name and its location. *)
Record t := mk { name : string; path : string }.

End FilePickerFile.

(** [e.files] is [None] when the dialog was cancelled, otherwise the list
    of the chosen files. *)
Record FilePickerResultEvent := mkResult {
  files : option (list FilePickerFile.t)
}.

(** Truth value of an [Optional[list]]: [None] and the empty list are
    false. *)
Definition truthy {A : Type} (o : option (list A)) : bool :=
  match o with
  | Some (_ :: _) => true
  | _ => false
  end.

(** The elements iterated over; only used where [truthy] holds. *)
Definition elements {A : Type} (o : option (list A)) : list A :=
  match o with
  | Some l => l
  | None => []
  end.

(** A click event delivered to an [on_click] handler. *)
Record ControlEvent := mkEvent { event_data : string }.

(** ** The world the view acts on *)

(** References to list objects. *)
Definition loc := nat.

(** What the view sends to its collaborators, in the order it is sent. *)
Inductive Effect :=
| Log_info (text : string) (shown : option (list string))
| Control_update (value : string)
| Pick_files (allow_multiple : bool) (file_type : string)
    (allowed_extensions : list string)
| Open_url (url : string)
| Confirm_called (e : ControlEvent).

Record World := mkWorld {
  selected_addons : string;         (* self.selected_addons.value *)
  addon_paths : option loc;         (* self.addon_paths, None when unset *)
  state_addon_paths : option loc;   (* self.state.addon_paths *)
  heap : list (list string);        (* the list objects, by reference *)
  trace : list Effect               (* effects so far, oldest first *)
}.

Definition M := state World.

Definition set_selected_addons (v : string) : M unit :=
  w <- get ;;
  put (mkWorld v (addon_paths w) (state_addon_paths w) (heap w) (trace w)).

Definition set_addon_paths (r : option loc) : M unit :=
  w <- get ;;
  put (mkWorld (selected_addons w) r (state_addon_paths w) (heap w) (trace w)).

Definition set_state_addon_paths (r : option loc) : M unit :=
  w <- get ;;
  put (mkWorld (selected_addons w) (addon_paths w) r (heap w) (trace w)).

(** A list display such as [[file.path for file in e.files]] builds a new
    list object. *)
Definition new_list (l : list string) : M loc :=
  w <- get ;;
  put (mkWorld (selected_addons w) (addon_paths w) (state_addon_paths w)
         (heap w ++ [l]) (trace w)) ;;
  ret (length (heap w)).

Definition emit (x : Effect) : M unit :=
  w <- get ;;
  put (mkWorld (selected_addons w) (addon_paths w) (state_addon_paths w)
         (heap w) (trace w ++ [x])).

(** The list a field refers to, if it refers to one. *)
Definition list_at (w : World) (r : option loc) : option (list string) :=
  match r with
  | Some l => nth_error (heap w) l
  | None => None
  end.

(** ** Controls *)

Record Button := mkButton {
  text : string;
  on_click : ControlEvent -> M unit;
  disabled : bool
}.

(** A click reaches the handler of a button that is not disabled. *)
Definition click (b : Button) (e : ControlEvent) : M unit :=
  if disabled b then ret tt else on_click b e.

Record FilePicker := mkFilePicker {
  on_result : FilePickerResultEvent -> M unit
}.

(** [FilePicker.pick_files]: opens the native dialog; the result arrives
    later through [on_result]. *)
Definition pick_files (allow_multiple : bool) (file_type : string)
    (allowed_extensions : list string) : M unit :=
  emit (Pick_files allow_multiple file_type allowed_extensions).

(** [webbrowser.open] *)
Definition webbrowser_open (url : string) : M unit :=
  emit (Open_url url).

Module widgets.

(** Modelled from the spec: [confirm_button] of the [widgets] module is
    not part of the sources at hand.  The specification describes the
    confirm control as one that, when activated, invokes the supplied
    callback unconditionally and is always enabled. *)
Definition confirm_button (confirm_func : ControlEvent -> M unit) : Button :=
  mkButton "Continue" confirm_func false.

End widgets.

(** ** AddonsView *)

(** [pick_addons_result]: the handler of the picker's result. *)
Definition pick_addons_result (e : FilePickerResultEvent) : M unit :=
  let path :=
    if truthy (files e)
    then join ", " (map FilePickerFile.name (elements (files e)))
    else "Cancelled!" in
  value <- gets selected_addons ;;
  set_selected_addons (item0 (split ":" value) ++ ": " ++ path) ;;
  (if truthy (files e)
   then
     r <- new_list (map FilePickerFile.path (elements (files e))) ;;
     set_addon_paths (Some r) ;;
     own <- gets addon_paths ;;
     set_state_addon_paths own ;;
     w <- get ;;
     emit (Log_info "Selected addons: " (list_at w (addon_paths w)))
   else
     emit (Log_info "No addons selected." None)) ;;
  shown <- gets selected_addons ;;
  emit (Control_update shown).

(** The interactive controls that [build] creates. *)
Record Controls := mkControls {
  pick_addons_dialog : FilePicker;
  confirm_button : Button;
  pick_button : Button;
  download_buttons : list Button
}.

Section View.

(** The callback given to the constructor. *)
Variable on_confirm : ControlEvent -> M unit.

(** [build]: the static layout (texts, dividers, the help dialog) is left
    out; the label, the picker, the confirm button and the buttons with
    handlers are kept. *)
Definition build : M Controls :=
  set_selected_addons "Selected addons: " ;;
  ret (mkControls
         (mkFilePicker pick_addons_result)
         (widgets.confirm_button on_confirm)
         (mkButton "Pick the addons you want to install"
            (fun _ => pick_files true "custom" ["zip"]) false)
         [ mkButton "Download F-Droid App-Store"
             (fun _ => webbrowser_open
                "https://f-droid.org/en/packages/org.fdroid.fdroid.privileged.ota/")
             false;
           mkButton "Download Google Apps"
             (fun _ => webbrowser_open
                "https://wiki.lineageos.org/gapps#downloads")
             false;
           mkButton "Download MicroG"
             (fun _ => webbrowser_open
                "https://github.com/FriendlyNeighborhoodShane/MinMicroG-abuse-CI/releases")
             false ]).

End View.

(** ** Running the view *)

(** The world after a computation. *)
Definition after {A : Type} (c : M A) (w : World) : World := execState c w.

(** The result events of successive picker invocations, handled in order. *)
Fixpoint handle_all (es : list FilePickerResultEvent) : M unit :=
  match es with
  | [] => ret tt
  | e :: es' => pick_addons_result e ;; handle_all es'
  end.

(** The text of a label before its first colon. *)
Definition label_prefix (s : string) : string := item0 (split ":" s).

(** The paths the application state holds. *)
Definition state_paths (w : World) : option (list string) :=
  list_at w (state_addon_paths w).

(** The paths the view holds. *)
Definition view_paths (w : World) : option (list string) :=
  list_at w (addon_paths w).

(** A file picker result with files, and a cancelled one. *)
Definition Selected (fs : list FilePickerFile.t) : FilePickerResultEvent :=
  mkResult (Some fs).

Definition Cancelled : FilePickerResultEvent := mkResult None.

(** A world before the view is built: nothing selected, nothing stored. *)
Definition empty_world : World := mkWorld "" None None [] [].

(** A callback that records that it was called, to count invocations. *)
Definition recording_callback (e : ControlEvent) : M unit :=
  emit (Confirm_called e).

(** The view built in an empty world with the recording callback. *)
Definition built_world : World := after (build recording_callback) empty_world.

(** The files of the scenarios of the specification. *)
Definition scenario_A_files : list FilePickerFile.t :=
  [FilePickerFile.mk "MindTheGapps.zip" "/tmp/a.zip"].

Definition scenario_B_files : list FilePickerFile.t :=
  [FilePickerFile.mk "a.zip" "/x/a.zip"; FilePickerFile.mk "b.zip" "/x/b.zip"].

(** ** Sequences of results and of user actions *)

(** The text a result is shown with: the local [path] of
    [pick_addons_result]. *)
Definition result_text (e : FilePickerResultEvent) : string :=
  if truthy (files e)
  then join ", " (map FilePickerFile.name (elements (files e)))
  else "Cancelled!".

(** The paths of a result's files. *)
Definition result_paths (e : FilePickerResultEvent) : list string :=
  map FilePickerFile.path (elements (files e)).

(** What handling one result sends out, for a label with the given
    prefix: a log record, then the update of the label. *)
Definition result_effects (prefix : string) (e : FilePickerResultEvent)
  : list Effect :=
  [ if truthy (files e)
    then Log_info "Selected addons: " (Some (result_paths e))
    else Log_info "No addons selected." None;
    Control_update (prefix ++ ": " ++ result_text e) ].

(** The last result of a sequence that carries files, if there is one. *)
Fixpoint last_selected (es : list FilePickerResultEvent)
  : option FilePickerResultEvent :=
  match es with
  | [] => None
  | e :: es' =>
      match last_selected es' with
      | Some e' => Some e'
      | None => if truthy (files e) then Some e else None
      end
  end.

(** The results of a sequence that carry files, in order. *)
Definition selections (es : list FilePickerResultEvent)
  : list FilePickerResultEvent :=
  filter (fun e => truthy (files e)) es.

(** The part of the world that is stored, without the effects sent. *)
Definition store (w : World)
  : string * option loc * option loc * list (list string) :=
  (selected_addons w, addon_paths w, state_addon_paths w, heap w).

(** What a user, or the picker on the user's behalf, does to the built
    view. *)
Inductive Action :=
| Click_pick (ev : ControlEvent)
| Picker_result (e : FilePickerResultEvent)
| Click_download (i : nat) (ev : ControlEvent)
| Click_confirm (ev : ControlEvent).

(** An action reaches the handler that [build] attached to its control. *)
Definition dispatch (cs : Controls) (a : Action) : M unit :=
  match a with
  | Click_pick ev => click (pick_button cs) ev
  | Picker_result e => on_result (pick_addons_dialog cs) e
  | Click_download i ev =>
      match nth_error (download_buttons cs) i with
      | Some b => click b ev
      | None => ret tt
      end
  | Click_confirm ev => click (confirm_button cs) ev
  end.

Fixpoint session (cs : Controls) (acts : list Action) : M unit :=
  match acts with
  | [] => ret tt
  | a :: acts' => dispatch cs a ;; session cs acts'
  end.

(** The controls of a view built with the recording callback.  The
    controls do not depend on the world [build] runs in. *)
Definition built_controls : Controls :=
  evalState (build recording_callback) empty_world.

(** The picker results among the actions, in order. *)
Fixpoint results_of (acts : list Action) : list FilePickerResultEvent :=
  match acts with
  | [] => []
  | Picker_result e :: acts' => e :: results_of acts'
  | _ :: acts' => results_of acts'
  end.

(** The click events of the confirm clicks among the actions, in order. *)
Fixpoint confirm_clicks (acts : list Action) : list ControlEvent :=
  match acts with
  | [] => []
  | Click_confirm ev :: acts' => ev :: confirm_clicks acts'
  | _ :: acts' => confirm_clicks acts'
  end.

(** The number of clicks on the pick button among the actions. *)
Fixpoint pick_clicks (acts : list Action) : nat :=
  match acts with
  | [] => 0
  | Click_pick _ :: acts' => S (pick_clicks acts')
  | _ :: acts' => pick_clicks acts'
  end.

Definition is_confirm (x : Effect) : bool :=
  match x with Confirm_called _ => true | _ => false end.

Definition is_pick (x : Effect) : bool :=
  match x with Pick_files _ _ _ => true | _ => false end.

(** * Properties *)

(** ** Strings *)

Lemma split_nonempty (sep : ascii) (s : string) : split sep s <> [].
Proof.
  unfold split. destruct (split_fields sep s). discriminate.
Qed.

Lemma item0_split (sep : ascii) (s : string) :
  item0 (split sep s) = fst (split_fields sep s).
Proof.
  unfold split. destruct (split_fields sep s). reflexivity.
Qed.

(** The first field holds no separator. *)
Lemma first_field_clean (sep : ascii) (s : string) :
  occurs sep (fst (split_fields sep s)) = false.
Proof.
  induction s as [|c s IH]; simpl; [reflexivity|].
  destruct (split_fields sep s) as [w ws]; simpl in *.
  destruct (Ascii.eqb c sep) eqn:E; simpl; [reflexivity|].
  rewrite E, IH. reflexivity.
Qed.

(** A string without separator, followed by a separator, is the first
    field of the whole. *)
Lemma first_field_app (sep : ascii) (p x : string) :
  occurs sep p = false ->
  fst (split_fields sep (p ++ String sep x)) = p.
Proof.
  induction p as [|c p IH]; simpl; intros H.
  - destruct (split_fields sep x). rewrite Ascii.eqb_refl. reflexivity.
  - apply orb_false_elim in H as [Hc Hp]. specialize (IH Hp).
    destruct (split_fields sep (p ++ String sep x)) as [w ws]; simpl in *.
    rewrite Hc. simpl. congruence.
Qed.

(** The first field is the text before the first separator: the string is
    its first field, followed by nothing or by a separator and the rest. *)
Lemma first_field_decompose (sep : ascii) (s : string) :
  s = fst (split_fields sep s) \/
  exists rest, s = fst (split_fields sep s) ++ String sep rest.
Proof.
  induction s as [|c s IH]; simpl; [left; reflexivity|].
  destruct (split_fields sep s) as [w ws]; simpl in *.
  destruct (Ascii.eqb_spec c sep) as [->|Hne]; simpl.
  - right. exists s. reflexivity.
  - destruct IH as [IH|[rest IH]].
    + left. congruence.
    + right. exists rest. rewrite IH at 1. reflexivity.
Qed.

Lemma append_nil_r (s : string) : s ++ "" = s.
Proof.
  induction s as [|c s IH]; simpl; congruence.
Qed.

Lemma label_prefix_clean (s : string) : occurs ":" (label_prefix s) = false.
Proof.
  unfold label_prefix. rewrite item0_split. apply first_field_clean.
Qed.

Lemma label_prefix_app (p x : string) :
  occurs ":" p = false -> label_prefix (p ++ ": " ++ x) = p.
Proof.
  intros H. unfold label_prefix. rewrite item0_split.
  apply (first_field_app ":" p (String " " x) H).
Qed.

(** Writing a new suffix behind the prefix of a label keeps the prefix. *)
Lemma label_prefix_rewrite (s x : string) :
  label_prefix (label_prefix s ++ ": " ++ x) = label_prefix s.
Proof.
  apply label_prefix_app, label_prefix_clean.
Qed.

(** ** The handler in closed form *)

Lemma after_bind {A B : Type} (c : M A) (k : A -> M B) (w : World) :
  after (x <- c ;; k x) w = after (k (evalState c w)) (after c w).
Proof.
  unfold after, execState, evalState. simpl.
  destruct (runState c w). reflexivity.
Qed.

(** A result with at least one file. *)
Lemma handler_selected (f : FilePickerFile.t) (fs : list FilePickerFile.t)
    (w : World) :
  let names := join ", " (map FilePickerFile.name (f :: fs)) in
  let paths := map FilePickerFile.path (f :: fs) in
  let label := label_prefix (selected_addons w) ++ ": " ++ names in
  after (pick_addons_result (Selected (f :: fs))) w =
  mkWorld label (Some (length (heap w))) (Some (length (heap w)))
    (heap w ++ [paths])
    ((trace w ++ [Log_info "Selected addons: " (Some paths)])
       ++ [Control_update label]).
Proof.
  intros names paths label.
  unfold after, execState, pick_addons_result. simpl.
  rewrite nth_error_app2 by lia. rewrite Nat.sub_diag. reflexivity.
Qed.

(** A result without files: cancelled, or an empty list. *)
Lemma handler_no_files (e : FilePickerResultEvent) (w : World) :
  truthy (files e) = false ->
  let label := label_prefix (selected_addons w) ++ ": Cancelled!" in
  after (pick_addons_result e) w =
  mkWorld label (addon_paths w) (state_addon_paths w) (heap w)
    ((trace w ++ [Log_info "No addons selected." None])
       ++ [Control_update label]).
Proof.
  intros H label.
  unfold after, execState, pick_addons_result. rewrite H. reflexivity.
Qed.

(** The paths read through the application state after a result with
    files. *)
Lemma selected_state_paths (f : FilePickerFile.t)
    (fs : list FilePickerFile.t) (w : World) :
  state_paths (after (pick_addons_result (Selected (f :: fs))) w) =
  Some (map FilePickerFile.path (f :: fs)).
Proof.
  rewrite handler_selected. unfold state_paths. cbn -[map].
  rewrite nth_error_app2 by lia. rewrite Nat.sub_diag. reflexivity.
Qed.

Lemma no_payload_not_truthy (e : FilePickerResultEvent) :
  files e = None \/ files e = Some [] -> truthy (files e) = false.
Proof.
  intros [H|H]; rewrite H; reflexivity.
Qed.

(** The label after any result: the old prefix and a new suffix. *)
Lemma handler_label (e : FilePickerResultEvent) (w : World) :
  exists suffix,
    selected_addons (after (pick_addons_result e) w) =
    label_prefix (selected_addons w) ++ ": " ++ suffix.
Proof.
  destruct e as [[[|f fs]|]].
  - exists "Cancelled!". rewrite handler_no_files; reflexivity.
  - eexists. change (mkResult (Some (f :: fs))) with (Selected (f :: fs)).
    rewrite handler_selected. reflexivity.
  - exists "Cancelled!". rewrite handler_no_files; reflexivity.
Qed.

(** ** Scenarios of the specification *)

Example split_examples :
  split ":" "Selected addons: a.zip" = ["Selected addons"; " a.zip"] /\
  split ":" "abc" = ["abc"] /\
  split ":" "" = [""] /\
  split ":" "a:b::c" = ["a"; "b"; ""; "c"].
Proof. repeat split. Qed.

Example scenario_A :
  let w := after (pick_addons_result (Selected scenario_A_files)) built_world in
  selected_addons w = "Selected addons: MindTheGapps.zip" /\
  state_paths w = Some ["/tmp/a.zip"].
Proof. split; reflexivity. Qed.

Example scenario_B :
  let w := after (pick_addons_result (Selected scenario_B_files)) built_world in
  selected_addons w = "Selected addons: a.zip, b.zip" /\
  state_paths w = Some ["/x/a.zip"; "/x/b.zip"].
Proof. split; reflexivity. Qed.

Example scenario_C :
  let w := after (handle_all [Selected scenario_A_files; Cancelled]) built_world in
  selected_addons w = "Selected addons: Cancelled!" /\
  state_paths w = Some ["/tmp/a.zip"].
Proof. split; reflexivity. Qed.

(** ** The result handler and the shared state *)

(** C1: after a result with a non-empty list of files is handled, the
    application state's [addon_paths] is the list of the files' paths in
    the order of the input, and the view's own [addon_paths] is the very
    same list. *)
Theorem selection_writes_paths (fs : list FilePickerFile.t) (w : World) :
  fs <> [] ->
  let w' := after (pick_addons_result (Selected fs)) w in
  state_paths w' = Some (map FilePickerFile.path fs) /\
  addon_paths w' = state_addon_paths w' /\
  view_paths w' = state_paths w'.
Proof.
  intros Hne w'. subst w'. destruct fs as [|f fs]; [congruence|].
  split; [apply selected_state_paths|].
  rewrite handler_selected. split; reflexivity.
Qed.

Lemma selection_writes_paths_witness :
  scenario_B_files <> [] /\
  let w' := after (pick_addons_result (Selected scenario_B_files)) built_world in
  state_paths w' = Some (map FilePickerFile.path scenario_B_files) /\
  addon_paths w' = state_addon_paths w' /\
  view_paths w' = state_paths w'.
Proof.
  split; [discriminate|].
  apply (selection_writes_paths scenario_B_files built_world). discriminate.
Defined.

(** C2: a cancelled result (no files) and a result with an empty list of
    files leave the application state's [addon_paths] as it was, whatever
    it was: the reference, the list objects and so the paths read through
    it are unchanged. *)
Theorem no_files_keeps_state (e : FilePickerResultEvent) (w : World) :
  files e = None \/ files e = Some [] ->
  let w' := after (pick_addons_result e) w in
  state_addon_paths w' = state_addon_paths w /\
  heap w' = heap w /\
  state_paths w' = state_paths w /\
  addon_paths w' = addon_paths w.
Proof.
  intros H w'. subst w'.
  rewrite (handler_no_files e w (no_payload_not_truthy e H)).
  repeat split.
Qed.

Lemma no_files_keeps_state_witness :
  let w := after (pick_addons_result (Selected scenario_A_files)) built_world in
  (files Cancelled = None \/ files Cancelled = Some []) /\
  let w' := after (pick_addons_result Cancelled) w in
  state_addon_paths w' = state_addon_paths w /\
  heap w' = heap w /\
  state_paths w' = state_paths w /\
  addon_paths w' = addon_paths w.
Proof.
  intros w. split; [left; reflexivity|].
  apply (no_files_keeps_state Cancelled w). left. reflexivity.
Defined.

(** ** The label *)








(** C4, as stated, fails at the empty list of files: the label is not the
    prefix followed by the (empty) joined names, and no list of paths is
    written to the application state. *)
Lemma empty_selection_not_joined :
  let w' := after (pick_addons_result (Selected [])) built_world in
  selected_addons w' <>
    label_prefix (selected_addons built_world) ++ ": "
      ++ join ", " (map FilePickerFile.name []) /\
  state_paths w' <> Some (map FilePickerFile.path []).
Proof.
  split; discriminate.
Qed.

(** C4, amended: for every non-empty list of files, whatever their names
    and paths, the label becomes its existing prefix, then ": ", then the
    files' names joined by ", ", and the application state receives the
    files' paths, not their names. *)
Theorem selection_label_and_paths (fs : list FilePickerFile.t) (w : World) :
  fs <> [] ->
  let w' := after (pick_addons_result (Selected fs)) w in
  selected_addons w' =
    label_prefix (selected_addons w) ++ ": "
      ++ join ", " (map FilePickerFile.name fs) /\
  state_paths w' = Some (map FilePickerFile.path fs).
Proof.
  intros Hne w'. subst w'. destruct fs as [|f fs]; [congruence|].
  split; [|apply selected_state_paths].
  rewrite handler_selected. reflexivity.
Qed.

Lemma selection_label_and_paths_witness :
  scenario_B_files <> [] /\
  let w' := after (pick_addons_result (Selected scenario_B_files)) built_world in
  selected_addons w' =
    label_prefix (selected_addons built_world) ++ ": "
      ++ join ", " (map FilePickerFile.name scenario_B_files) /\
  state_paths w' = Some (map FilePickerFile.path scenario_B_files).
Proof.
  split; [discriminate|].
  apply (selection_label_and_paths scenario_B_files built_world). discriminate.
Defined.

(** C5: a cancelled result handled after a result with files sets the
    label to the prefix the label had, followed by ": Cancelled!", and the
    application state still holds the paths of the earlier selection. *)
Theorem cancel_after_selection (fs : list FilePickerFile.t) (w : World) :
  fs <> [] ->
  let w' := after (handle_all [Selected fs; Cancelled]) w in
  selected_addons w' = label_prefix (selected_addons w) ++ ": Cancelled!" /\
  state_paths w' = Some (map FilePickerFile.path fs).
Proof.
  intros Hne w'. subst w'. destruct fs as [|f fs]; [congruence|].
  cbn [handle_all]. rewrite after_bind, after_bind.
  set (w1 := after (pick_addons_result (Selected (f :: fs))) w).
  rewrite (handler_no_files Cancelled w1 eq_refl).
  unfold state_paths. cbn [selected_addons state_addon_paths heap list_at].
  split.
  - unfold w1. rewrite handler_selected. cbn [selected_addons].
    rewrite label_prefix_rewrite. reflexivity.
  - apply (selected_state_paths f fs w).
Qed.

Lemma cancel_after_selection_witness :
  scenario_A_files <> [] /\
  let w' := after (handle_all [Selected scenario_A_files; Cancelled]) built_world in
  selected_addons w' = label_prefix (selected_addons built_world) ++ ": Cancelled!" /\
  state_paths w' = Some (map FilePickerFile.path scenario_A_files).
Proof.
  split; [discriminate|].
  apply (cancel_after_selection scenario_A_files built_world). discriminate.
Defined.

(** C6: over any sequence of results, with files or cancelled, the text
    of the label before its first colon stays what it was; the label is
    always that prefix followed by some suffix. *)
Theorem label_prefix_invariant (es : list FilePickerResultEvent) (w : World) :
  let w' := after (handle_all es) w in
  label_prefix (selected_addons w') = label_prefix (selected_addons w) /\
  exists suffix, selected_addons w' = label_prefix (selected_addons w) ++ suffix.
Proof.
  revert w. induction es as [|e es IH]; intros w; cbn [handle_all].
  - split; [reflexivity|].
    unfold label_prefix. rewrite item0_split.
    destruct (first_field_decompose ":" (selected_addons w)) as [H|[rest H]].
    + exists "". cbn [after execState runState ret Monad_state fst snd].
      rewrite append_nil_r. exact H.
    + exists (String ":" rest). exact H.
  - rewrite after_bind.
    destruct (IH (after (pick_addons_result e) w)) as [Hp [suffix Hs]].
    destruct (handler_label e w) as [x Hx].
    assert (Hpre : label_prefix (selected_addons (after (pick_addons_result e) w))
                   = label_prefix (selected_addons w))
      by (rewrite Hx; apply label_prefix_rewrite).
    split.
    + rewrite Hp. exact Hpre.
    + exists suffix. rewrite Hs, Hpre. reflexivity.
Qed.

(** C7: of two results with non-empty lists of files handled one after
    the other, the application state holds the paths of the second only:
    the write replaces what was there and adds nothing to it. *)
Theorem last_selection_wins (fs1 fs2 : list FilePickerFile.t) (w : World) :
  fs1 <> [] -> fs2 <> [] ->
  let w' := after (handle_all [Selected fs1; Selected fs2]) w in
  state_paths w' = Some (map FilePickerFile.path fs2) /\
  view_paths w' = Some (map FilePickerFile.path fs2).
Proof.
  intros H1 H2 w'. subst w'. destruct fs2 as [|f fs2]; [congruence|].
  cbn [handle_all]. rewrite after_bind, after_bind.
  set (w1 := after (pick_addons_result (Selected fs1)) w).
  cbn [after execState runState ret Monad_state snd].
  fold (after (pick_addons_result (Selected (f :: fs2))) w1).
  split; [apply selected_state_paths|].
  rewrite handler_selected. unfold view_paths. cbn -[map].
  rewrite nth_error_app2 by lia. rewrite Nat.sub_diag. reflexivity.
Qed.

Lemma last_selection_wins_witness :
  scenario_A_files <> [] /\ scenario_B_files <> [] /\
  let w' :=
    after (handle_all [Selected scenario_A_files; Selected scenario_B_files])
      built_world in
  state_paths w' = Some (map FilePickerFile.path scenario_B_files) /\
  view_paths w' = Some (map FilePickerFile.path scenario_B_files).
Proof.
  split; [discriminate|]. split; [discriminate|].
  apply (last_selection_wins scenario_A_files scenario_B_files built_world);
    discriminate.
Defined.

(** ** The controls wired by [build] *)

(** C8: the confirm button that [build] creates is enabled, and a click
    on it, in any world (also one where no addon was ever selected), is
    one run of the callback given to the view and nothing else; with the
    recording callback the click leaves exactly one record and changes
    nothing else. *)
Theorem confirm_runs_callback (on_confirm : ControlEvent -> M unit)
    (w0 w : World) (ev : ControlEvent) :
  let b := confirm_button (evalState (build on_confirm) w0) in
  let r := confirm_button (evalState (build recording_callback) w0) in
  disabled b = false /\
  runState (click b ev) w = runState (on_confirm ev) w /\
  after (click r ev) w =
    mkWorld (selected_addons w) (addon_paths w) (state_addon_paths w)
      (heap w) (trace w ++ [Confirm_called ev]).
Proof.
  repeat split.
Qed.

(** C9: a click on the pick button opens the file picker with multiple
    selection allowed and with "zip" as the one allowed extension, and
    does nothing else. *)
Theorem pick_opens_zip_picker (on_confirm : ControlEvent -> M unit)
    (w0 w : World) (ev : ControlEvent) :
  let b := pick_button (evalState (build on_confirm) w0) in
  exists exts,
    after (click b ev) w =
      mkWorld (selected_addons w) (addon_paths w) (state_addon_paths w)
        (heap w) (trace w ++ [Pick_files true "custom" exts]) /\
    forall x, In x exts <-> x = "zip".
Proof.
  exists ["zip"]. split; [reflexivity|].
  intros x. simpl. split; [intros [H|[]]; auto | auto].
Qed.

(** C10: right after [build] the label is "Selected addons: ", that is
    the prefix "Selected addons" with an empty suffix; whatever result is
    handled first, the label then begins with "Selected addons: ", and for
    a cancelled one it is "Selected addons: Cancelled!". *)
Theorem built_label (on_confirm : ControlEvent -> M unit) (w0 : World) :
  let w := after (build on_confirm) w0 in
  selected_addons w = "Selected addons: " /\
  selected_addons w = label_prefix (selected_addons w) ++ ": " ++ "" /\
  label_prefix (selected_addons w) = "Selected addons" /\
  (forall e, exists suffix,
     selected_addons (after (pick_addons_result e) w)
     = "Selected addons: " ++ suffix) /\
  selected_addons (after (pick_addons_result Cancelled) w)
  = "Selected addons: Cancelled!".
Proof.
  intros w.
  assert (Hw : selected_addons w = "Selected addons: ") by reflexivity.
  repeat split; try (rewrite Hw; reflexivity).
  intros e. destruct (handler_label e w) as [x Hx].
  exists x. rewrite Hx, Hw. reflexivity.
Qed.

(** * Further properties of the handler *)

(** ** One result, in general *)

Lemma handler_step (e : FilePickerResultEvent) (w : World) :
  after (pick_addons_result e) w =
  mkWorld (label_prefix (selected_addons w) ++ ": " ++ result_text e)
    (if truthy (files e) then Some (length (heap w)) else addon_paths w)
    (if truthy (files e) then Some (length (heap w)) else state_addon_paths w)
    (heap w ++ map result_paths (selections [e]))
    (trace w ++ result_effects (label_prefix (selected_addons w)) e).
Proof.
  destruct e as [[[|f fs]|]].
  - rewrite handler_no_files by reflexivity. cbn.
    rewrite app_nil_r, <- app_assoc. reflexivity.
  - change (mkResult (Some (f :: fs))) with (Selected (f :: fs)).
    rewrite handler_selected. cbn -[map join label_prefix].
    rewrite <- app_assoc. reflexivity.
  - rewrite handler_no_files by reflexivity. cbn.
    rewrite app_nil_r, <- app_assoc. reflexivity.
Qed.

Lemma handle_all_cons (e : FilePickerResultEvent)
    (es : list FilePickerResultEvent) (w : World) :
  after (handle_all (e :: es)) w =
  after (handle_all es) (after (pick_addons_result e) w).
Proof.
  cbn [handle_all]. rewrite after_bind. reflexivity.
Qed.

Lemma handle_all_snoc (es : list FilePickerResultEvent)
    (e : FilePickerResultEvent) (w : World) :
  after (handle_all (es ++ [e])) w =
  after (pick_addons_result e) (after (handle_all es) w).
Proof.
  revert w. induction es as [|e0 es IH]; intros w.
  - cbn [app]. rewrite handle_all_cons. reflexivity.
  - cbn [app]. rewrite !handle_all_cons. apply IH.
Qed.

Lemma handler_prefix (e : FilePickerResultEvent) (w : World) :
  label_prefix (selected_addons (after (pick_addons_result e) w)) =
  label_prefix (selected_addons w).
Proof.
  rewrite handler_step. apply label_prefix_rewrite.
Qed.

Lemma handle_all_prefix (es : list FilePickerResultEvent) (w : World) :
  label_prefix (selected_addons (after (handle_all es) w)) =
  label_prefix (selected_addons w).
Proof.
  revert w. induction es as [|e es IH]; intros w; [reflexivity|].
  rewrite handle_all_cons, IH. apply handler_prefix.
Qed.

Lemma handle_all_heap (es : list FilePickerResultEvent) (w : World) :
  heap (after (handle_all es) w) =
  (heap w ++ map result_paths (selections es))%list.
Proof.
  revert w. induction es as [|e es IH]; intros w.
  - cbn. rewrite app_nil_r. reflexivity.
  - rewrite handle_all_cons, IH, handler_step. cbn [heap].
    rewrite <- app_assoc, <- map_app. unfold selections.
    rewrite <- filter_app. reflexivity.
Qed.

Lemma handle_all_trace (es : list FilePickerResultEvent) (w : World) :
  trace (after (handle_all es) w) =
  (trace w ++ flat_map (result_effects (label_prefix (selected_addons w))) es)%list.
Proof.
  revert w. induction es as [|e es IH]; intros w.
  - cbn. rewrite app_nil_r. reflexivity.
  - rewrite handle_all_cons, IH, handler_prefix, handler_step. cbn [trace].
    rewrite <- app_assoc. reflexivity.
Qed.

Lemma handler_state_paths (e : FilePickerResultEvent) (w : World) :
  state_paths (after (pick_addons_result e) w) =
  if truthy (files e) then Some (result_paths e) else state_paths w.
Proof.
  destruct e as [[[|f fs]|]].
  - rewrite handler_no_files by reflexivity. reflexivity.
  - apply (selected_state_paths f fs w).
  - rewrite handler_no_files by reflexivity. reflexivity.
Qed.

Lemma handle_all_state_paths (es : list FilePickerResultEvent) (w : World) :
  state_paths (after (handle_all es) w) =
  match last_selected es with
  | Some e => Some (result_paths e)
  | None => state_paths w
  end.
Proof.
  revert w. induction es as [|e es IH]; intros w; [reflexivity|].
  rewrite handle_all_cons, IH. cbn [last_selected].
  destruct (last_selected es); [reflexivity|].
  rewrite handler_state_paths. destruct (truthy (files e)); reflexivity.
Qed.

(** ** Sequences of results *)

(** X1: after any sequence of results the application state holds the
    paths of the last result that carried files; if no result carried
    files it holds what it held before. *)
Theorem state_follows_last_selection (es : list FilePickerResultEvent)
    (w : World) :
  state_paths (after (handle_all es) w) =
  match last_selected es with
  | Some e => Some (map FilePickerFile.path (elements (files e)))
  | None => state_paths w
  end.
Proof.
  apply handle_all_state_paths.
Qed.

(** X2: after any sequence of results the label is the prefix the label
    had at the start, then ": ", then the text of the last result alone:
    earlier results leave no mark on it. *)
Theorem label_follows_last_result (es : list FilePickerResultEvent)
    (e : FilePickerResultEvent) (w : World) :
  selected_addons (after (handle_all (es ++ [e])) w) =
  label_prefix (selected_addons w) ++ ": " ++
    (if truthy (files e)
     then join ", " (map FilePickerFile.name (elements (files e)))
     else "Cancelled!").
Proof.
  rewrite handle_all_snoc, handler_step. cbn [selected_addons].
  rewrite handle_all_prefix. reflexivity.
Qed.

(** X3: the handler never changes a list object that exists: whatever a
    reference read before a sequence of results, it reads after it. *)
Theorem stored_lists_never_mutated (es : list FilePickerResultEvent)
    (w : World) (r : option loc) (ps : list string) :
  list_at w r = Some ps ->
  list_at (after (handle_all es) w) r = Some ps.
Proof.
  destruct r as [l|]; [|discriminate]. cbn [list_at]. intros H.
  rewrite handle_all_heap.
  rewrite nth_error_app1; [exact H|].
  apply nth_error_Some. congruence.
Qed.

Lemma stored_lists_never_mutated_witness :
  let w := after (pick_addons_result (Selected scenario_A_files)) built_world in
  let es := [Selected scenario_B_files; Cancelled; Selected []] in
  list_at w (state_addon_paths w) = Some ["/tmp/a.zip"] /\
  list_at (after (handle_all es) w) (state_addon_paths w) = Some ["/tmp/a.zip"].
Proof.
  intros w es. split; [reflexivity|].
  apply (stored_lists_never_mutated es w (state_addon_paths w) ["/tmp/a.zip"]).
  reflexivity.
Defined.

(** X4: every result with files stores a list object of its own.  Of two
    such results in a row, also with the same files, the second stores a
    reference different from the first one's, and the first one's list
    still reads the first paths. *)
Theorem selection_allocates_fresh_list (fs1 fs2 : list FilePickerFile.t)
    (w : World) :
  fs1 <> [] -> fs2 <> [] ->
  let w1 := after (pick_addons_result (Selected fs1)) w in
  let w2 := after (pick_addons_result (Selected fs2)) w1 in
  state_addon_paths w2 <> state_addon_paths w1 /\
  list_at w2 (state_addon_paths w1) = Some (map FilePickerFile.path fs1) /\
  list_at w2 (state_addon_paths w2) = Some (map FilePickerFile.path fs2).
Proof.
  intros H1 H2 w1 w2. subst w1 w2.
  destruct fs1 as [|f1 fs1]; [congruence|].
  destruct fs2 as [|f2 fs2]; [congruence|].
  rewrite !handler_selected. cbn -[map].
  rewrite length_app. cbn [length].
  split; [intros H; injection H; lia|].
  split.
  - rewrite nth_error_app1 by (rewrite length_app; cbn; lia).
    rewrite nth_error_app2 by lia. rewrite Nat.sub_diag. reflexivity.
  - rewrite nth_error_app2 by (rewrite length_app; cbn; lia).
    rewrite length_app. cbn [length].
    rewrite Nat.sub_diag. reflexivity.
Qed.

Lemma selection_allocates_fresh_list_witness :
  scenario_A_files <> [] /\ scenario_A_files <> [] /\
  let w1 := after (pick_addons_result (Selected scenario_A_files)) built_world in
  let w2 := after (pick_addons_result (Selected scenario_A_files)) w1 in
  state_addon_paths w2 <> state_addon_paths w1 /\
  list_at w2 (state_addon_paths w1)
    = Some (map FilePickerFile.path scenario_A_files) /\
  list_at w2 (state_addon_paths w2)
    = Some (map FilePickerFile.path scenario_A_files).
Proof.
  split; [discriminate|]. split; [discriminate|].
  apply (selection_allocates_fresh_list scenario_A_files scenario_A_files
           built_world); discriminate.
Defined.

Lemma agree_step (e : FilePickerResultEvent) (w : World) :
  addon_paths w = state_addon_paths w ->
  addon_paths (after (pick_addons_result e) w) =
  state_addon_paths (after (pick_addons_result e) w).
Proof.
  intros H. rewrite handler_step. cbn [addon_paths state_addon_paths].
  destruct (truthy (files e)); [reflexivity|exact H].
Qed.

Lemma agree_all (es : list FilePickerResultEvent) (w : World) :
  addon_paths w = state_addon_paths w ->
  addon_paths (after (handle_all es) w) =
  state_addon_paths (after (handle_all es) w).
Proof.
  revert w. induction es as [|e es IH]; intros w H; [exact H|].
  rewrite handle_all_cons. apply IH, agree_step, H.
Qed.

(** X5: the view's own [addon_paths] and the application state's are the
    same reference after any sequence of results, as soon as they were the
    same before or one result of the sequence carried files; they then
    read the same paths. *)
Theorem view_and_state_agree (es : list FilePickerResultEvent) (w : World) :
  addon_paths w = state_addon_paths w \/ selections es <> [] ->
  let w' := after (handle_all es) w in
  addon_paths w' = state_addon_paths w' /\ view_paths w' = state_paths w'.
Proof.
  intros H w'.
  assert (Hr : addon_paths w' = state_addon_paths w').
  { subst w'. revert w H. induction es as [|e es IH]; intros w H.
    - destruct H as [H|H]; [exact H|]. exfalso. apply H. reflexivity.
    - rewrite handle_all_cons.
      destruct (truthy (files e)) eqn:E.
      + apply agree_all. rewrite handler_step, E. reflexivity.
      + apply IH. destruct H as [H|H].
        * left. apply agree_step, H.
        * right. unfold selections in *. cbn [filter] in H.
          rewrite E in H. exact H. }
  split; [exact Hr|]. unfold view_paths, state_paths. rewrite Hr. reflexivity.
Qed.

Lemma view_and_state_agree_witness :
  let w := mkWorld "Addons: none" None (Some 0) [["/old/x.zip"]] [] in
  let es := [Cancelled; Selected scenario_A_files; Selected []] in
  (addon_paths w = state_addon_paths w \/ selections es <> []) /\
  let w' := after (handle_all es) w in
  addon_paths w' = state_addon_paths w' /\ view_paths w' = state_paths w'.
Proof.
  intros w es. split; [right; discriminate|].
  apply (view_and_state_agree es w). right. discriminate.
Defined.

(** X6: handling a sequence of results sends, for each result in order,
    one log record and then one update of the label, and nothing else.
    The record of a result with files shows the files' paths; the update
    shows the prefix the label had at the start, ": " and the text of that
    result. *)
Theorem effects_of_results (es : list FilePickerResultEvent) (w : World) :
  trace (after (handle_all es) w) =
  (trace w ++
   flat_map
     (fun e =>
        [ if truthy (files e)
          then Log_info "Selected addons: "
                 (Some (map FilePickerFile.path (elements (files e))))
          else Log_info "No addons selected." None;
          Control_update
            (label_prefix (selected_addons w) ++ ": " ++ result_text e) ])
     es)%list /\
  length (trace (after (handle_all es) w)) = length (trace w) + 2 * length es.
Proof.
  split; [apply handle_all_trace|].
  rewrite handle_all_trace, length_app. f_equal.
  induction es as [|e es IH]; [reflexivity|].
  cbn [flat_map length app result_effects]. rewrite IH. lia.
Qed.

(** X7: the update is the last thing a handled result sends, and it shows
    the label as it is stored: after any sequence of results that is not
    empty, what the page was last told to show is the label the view
    holds. *)
Theorem last_update_shows_label (es : list FilePickerResultEvent)
    (e : FilePickerResultEvent) (w : World) :
  let w' := after (handle_all (es ++ [e])) w in
  exists sent, trace w' = (sent ++ [Control_update (selected_addons w')])%list.
Proof.
  intros w'. subst w'. rewrite handle_all_snoc.
  set (w1 := after (handle_all es) w).
  rewrite handler_step. cbn [trace selected_addons result_effects].
  eexists (trace w1 ++ [_])%list. rewrite <- app_assoc. reflexivity.
Qed.

(** * Properties of the built view *)

(** ** One action *)

(** The controls that [build] returns are the same in every world. *)
Lemma build_controls_fixed (on_confirm : ControlEvent -> M unit)
    (w0 w1 : World) :
  evalState (build on_confirm) w0 = evalState (build on_confirm) w1.
Proof.
  reflexivity.
Qed.

Lemma session_cons (cs : Controls) (a : Action) (acts : list Action)
    (w : World) :
  after (session cs (a :: acts)) w =
  after (session cs acts) (after (dispatch cs a) w).
Proof.
  cbn [session]. rewrite after_bind. reflexivity.
Qed.

(** The handler reads the stored part of the world only. *)
Lemma handler_store (e : FilePickerResultEvent) (w1 w2 : World) :
  store w1 = store w2 ->
  store (after (pick_addons_result e) w1) =
  store (after (pick_addons_result e) w2).
Proof.
  unfold store. intros H. injection H as Hl Ha Hs Hh.
  rewrite !handler_step. cbn [selected_addons addon_paths state_addon_paths heap].
  rewrite Hl, Ha, Hs, Hh. reflexivity.
Qed.

(** What one action sends and what it stores. *)
Lemma dispatch_step (a : Action) (w : World) :
  match a with
  | Picker_result e =>
      after (dispatch built_controls a) w = after (pick_addons_result e) w
  | Click_pick _ =>
      after (dispatch built_controls a) w =
      mkWorld (selected_addons w) (addon_paths w) (state_addon_paths w)
        (heap w) (trace w ++ [Pick_files true "custom" ["zip"]])
  | Click_confirm ev =>
      after (dispatch built_controls a) w =
      mkWorld (selected_addons w) (addon_paths w) (state_addon_paths w)
        (heap w) (trace w ++ [Confirm_called ev])
  | Click_download i _ =>
      after (dispatch built_controls a) w = w \/
      exists url,
        after (dispatch built_controls a) w =
        mkWorld (selected_addons w) (addon_paths w) (state_addon_paths w)
          (heap w) (trace w ++ [Open_url url])
  end.
Proof.
  destruct a as [ev|e|i ev|ev]; try reflexivity.
  destruct i as [|[|[|i]]]; try (right; eexists; reflexivity).
  left. destruct i; reflexivity.
Qed.

Lemma dispatch_store (a : Action) (w1 w2 : World) :
  store w1 = store w2 ->
  store (after (dispatch built_controls a) w1) =
  store (after (handle_all (results_of [a])) w2).
Proof.
  intros H. pose proof (dispatch_step a w1) as D.
  destruct a as [ev|e|i ev|ev]; cbn [results_of].
  - rewrite D. exact H.
  - rewrite D, handle_all_cons. apply handler_store, H.
  - destruct D as [D|[url D]]; rewrite D; exact H.
  - rewrite D. exact H.
Qed.

Lemma results_of_cons (a : Action) (acts : list Action) :
  results_of (a :: acts) = (results_of [a] ++ results_of acts)%list.
Proof.
  destruct a; reflexivity.
Qed.

Lemma handle_all_app (es1 es2 : list FilePickerResultEvent) (w : World) :
  after (handle_all (es1 ++ es2)) w =
  after (handle_all es2) (after (handle_all es1) w).
Proof.
  revert w. induction es1 as [|e es1 IH]; intros w; [reflexivity|].
  cbn [app]. rewrite !handle_all_cons. apply IH.
Qed.

Lemma session_store_rel (acts : list Action) (w1 w2 : World) :
  store w1 = store w2 ->
  store (after (session built_controls acts) w1) =
  store (after (handle_all (results_of acts)) w2).
Proof.
  revert w1 w2. induction acts as [|a acts IH]; intros w1 w2 H; [exact H|].
  rewrite session_cons, results_of_cons, handle_all_app.
  apply IH, dispatch_store, H.
Qed.

Lemma dispatch_confirms (a : Action) (w : World) :
  filter is_confirm (trace (after (dispatch built_controls a) w)) =
  (filter is_confirm (trace w) ++ map Confirm_called (confirm_clicks [a]))%list.
Proof.
  pose proof (dispatch_step a w) as D.
  destruct a as [ev|e|i ev|ev]; cbn [confirm_clicks map].
  - rewrite D. cbn [trace]. rewrite filter_app. reflexivity.
  - rewrite D, handler_step. cbn [trace]. rewrite filter_app.
    unfold result_effects. destruct (truthy (files e)); reflexivity.
  - destruct D as [D|[url D]]; rewrite D; cbn [trace].
    + rewrite app_nil_r. reflexivity.
    + rewrite filter_app. reflexivity.
  - rewrite D. cbn [trace]. rewrite filter_app. reflexivity.
Qed.

Lemma dispatch_picks (a : Action) (w : World) :
  filter is_pick (trace (after (dispatch built_controls a) w)) =
  (filter is_pick (trace w) ++
   repeat (Pick_files true "custom" ["zip"]) (pick_clicks [a]))%list.
Proof.
  pose proof (dispatch_step a w) as D.
  destruct a as [ev|e|i ev|ev]; cbn [pick_clicks repeat].
  - rewrite D. cbn [trace]. rewrite filter_app. reflexivity.
  - rewrite D, handler_step. cbn [trace]. rewrite filter_app.
    unfold result_effects. destruct (truthy (files e)); reflexivity.
  - destruct D as [D|[url D]]; rewrite D; cbn [trace].
    + rewrite app_nil_r. reflexivity.
    + rewrite filter_app. reflexivity.
  - rewrite D. cbn [trace]. rewrite filter_app. reflexivity.
Qed.

(** ** Sessions *)

(** X8: in any session with the built view, clicks on the pick button, on
    the download buttons and on the confirm button (with the recording
    callback) change nothing that is stored: the label, both references
    and the list objects are what the picker results of the session alone
    make them. *)
Theorem clicks_keep_store (acts : list Action) (w : World) :
  store (after (session built_controls acts) w) =
  store (after (handle_all (results_of acts)) w).
Proof.
  apply session_store_rel. reflexivity.
Qed.

(** X9: in any session with the built view, the callback given to the
    view is called once for each click on the confirm button, in the
    order of the clicks and with the event of the click, and by nothing
    else: picker results and the other buttons never call it. *)
Theorem callback_once_per_confirm_click (acts : list Action) (w : World) :
  filter is_confirm (trace (after (session built_controls acts) w)) =
  (filter is_confirm (trace w) ++ map Confirm_called (confirm_clicks acts))%list.
Proof.
  revert w. induction acts as [|a acts IH]; intros w.
  - cbn. rewrite app_nil_r. reflexivity.
  - rewrite session_cons, IH, dispatch_confirms, <- app_assoc, <- map_app.
    destruct a; reflexivity.
Qed.

(** X10: in any session with the built view, the file picker is opened
    once for each click on the pick button and by nothing else, and every
    time with multiple selection allowed and "zip" as the only allowed
    extension. *)
Theorem picker_once_per_pick_click (acts : list Action) (w : World) :
  filter is_pick (trace (after (session built_controls acts) w)) =
  (filter is_pick (trace w) ++
   repeat (Pick_files true "custom" ["zip"]) (pick_clicks acts))%list.
Proof.
  revert w. induction acts as [|a acts IH]; intros w.
  - cbn. rewrite app_nil_r. reflexivity.
  - rewrite session_cons, IH, dispatch_picks, <- app_assoc, <- repeat_app.
    destruct a; reflexivity.
Qed.

(** X11: each of the download buttons that [build] creates is enabled, and
    a click on it opens one https address in the browser and does nothing
    else: the label, the selection and the list objects stay as they
    are. *)
Theorem download_opens_url_only (on_confirm : ControlEvent -> M unit)
    (w0 w : World) (b : Button) (ev : ControlEvent) :
  In b (download_buttons (evalState (build on_confirm) w0)) ->
  disabled b = false /\
  exists url,
    String.prefix "https://" url = true /\
    after (click b ev) w =
      mkWorld (selected_addons w) (addon_paths w) (state_addon_paths w)
        (heap w) (trace w ++ [Open_url url]).
Proof.
  intros H. cbn in H.
  destruct H as [<-|[<-|[<-|[]]]]; (split; [reflexivity|]);
    eexists; (split; [|reflexivity]); reflexivity.
Qed.

Lemma download_opens_url_only_witness :
  let b := mkButton "Download Google Apps"
             (fun _ => webbrowser_open "https://wiki.lineageos.org/gapps#downloads")
             false in
  let ev := mkEvent "" in
  In b (download_buttons (evalState (build recording_callback) empty_world)) /\
  disabled b = false /\
  exists url,
    String.prefix "https://" url = true /\
    after (click b ev) built_world =
      mkWorld (selected_addons built_world) (addon_paths built_world)
        (state_addon_paths built_world) (heap built_world)
        (trace built_world ++ [Open_url url]).
Proof.
  intros b ev.
  assert (H : In b (download_buttons
                      (evalState (build recording_callback) empty_world)))
    by (right; left; reflexivity).
  split; [exact H|].
  exact (download_opens_url_only recording_callback empty_world built_world
           b ev H).
Defined.

(** X12: the whole step, from a view built in any world: a click on the
    pick button, the picker's result and a click on the confirm button
    send the picker request, the result's log record and update, and the
    call of the callback, in this order and nothing else; the label is
    "Selected addons: " and the text of the result; the application state
    holds the result's paths if it carried files and otherwise what it
    held before the view was built. *)
Theorem pick_result_confirm (e : FilePickerResultEvent)
    (ev1 ev2 : ControlEvent) (w0 : World) :
  let w :=
    after (cs <- build recording_callback ;;
           session cs [Click_pick ev1; Picker_result e; Click_confirm ev2])
      w0 in
  selected_addons w = "Selected addons: " ++ result_text e /\
  state_paths w =
    (if truthy (files e)
     then Some (map FilePickerFile.path (elements (files e)))
     else state_paths w0) /\
  trace w =
    (trace w0 ++
     [Pick_files true "custom" ["zip"]] ++
     result_effects "Selected addons" e ++
     [Confirm_called ev2])%list.
Proof.
  intros w. subst w. rewrite after_bind.
  change (evalState (build recording_callback) w0) with built_controls.
  set (wb := after (build recording_callback) w0).
  rewrite !session_cons.
  pose proof (dispatch_step (Click_pick ev1) wb) as D1. cbn beta iota in D1.
  rewrite D1. clear D1.
  set (w1 := mkWorld _ _ _ _ _).
  pose proof (dispatch_step (Picker_result e) w1) as D2. cbn beta iota in D2.
  rewrite D2. clear D2.
  set (w2 := after (pick_addons_result e) w1).
  pose proof (dispatch_step (Click_confirm ev2) w2) as D3. cbn beta iota in D3.
  rewrite D3. clear D3.
  cbn [session after execState runState ret Monad_state snd
       selected_addons trace].
  split; [|split].
  - unfold w2. rewrite handler_step. reflexivity.
  - change (state_paths w2 =
            if truthy (files e) then Some (result_paths e) else state_paths w0).
    unfold w2. rewrite handler_state_paths. reflexivity.
  - unfold w2. rewrite handler_step. unfold w1. cbn [trace selected_addons].
    rewrite <- !app_assoc. reflexivity.
Qed.

(** * Splitting and joining *)

Lemma concat_fields (sep : ascii) (s : string) :
  String.concat (String sep "")
    (fst (split_fields sep s) :: snd (split_fields sep s)) = s.
Proof.
  induction s as [|c s IH]; [reflexivity|]. cbn [split_fields].
  destruct (split_fields sep s) as [w ws]. cbn [fst snd] in IH.
  destruct (Ascii.eqb_spec c sep) as [->|Hne]; cbn [fst snd].
  - rewrite <- IH. reflexivity.
  - rewrite <- IH. destruct ws; reflexivity.
Qed.

Lemma fields_clean (sep : ascii) (s : string) :
  Forall (fun f => occurs sep f = false)
    (fst (split_fields sep s) :: snd (split_fields sep s)).
Proof.
  induction s as [|c s IH]; [repeat constructor|]. cbn [split_fields].
  destruct (split_fields sep s) as [w ws]. cbn [fst snd] in IH.
  destruct (Ascii.eqb c sep) eqn:E; cbn [fst snd].
  - constructor; [reflexivity|exact IH].
  - inversion IH as [|x l Hw Hws]; subst. constructor; [|exact Hws].
    cbn [occurs]. rewrite E, Hw. reflexivity.
Qed.

Lemma split_fields_app (sep : ascii) (p x : string) :
  occurs sep p = false ->
  split_fields sep (p ++ String sep x) = (p, split sep x).
Proof.
  unfold split. induction p as [|c p IH]; cbn [append split_fields occurs];
    intros H.
  - destruct (split_fields sep x). rewrite Ascii.eqb_refl. reflexivity.
  - apply orb_false_elim in H as [Hc Hp]. rewrite (IH Hp), Hc.
    destruct (split_fields sep x). reflexivity.
Qed.

(** X13: [split] on a character and [join] on the same character undo
    each other: joining the fields gives the string back, and no field
    holds the separator.  So the label is cut at colons without losing or
    adding a character. *)
Theorem split_then_join (sep : ascii) (s : string) :
  join (String sep "") (split sep s) = s /\
  Forall (fun f => occurs sep f = false) (split sep s).
Proof.
  unfold join, split.
  pose proof (concat_fields sep s) as HC. pose proof (fields_clean sep s) as HF.
  destruct (split_fields sep s) as [w ws]. split; assumption.
Qed.

(** X14: the label that the handler writes can be read back: after any
    result, the first field of the label cut at colons is the prefix the
    label had, and the other fields joined by colons are a space and the
    text of the result, also when file names hold colons. *)
Theorem label_reads_back (e : FilePickerResultEvent) (w : World) :
  let label := selected_addons (after (pick_addons_result e) w) in
  item0 (split ":" label) = label_prefix (selected_addons w) /\
  join ":" (tl (split ":" label)) = " " ++ result_text e.
Proof.
  intros label. subst label. rewrite handler_step. cbn [selected_addons].
  unfold split at 1 2.
  change (label_prefix (selected_addons w) ++ ": " ++ result_text e)
    with (label_prefix (selected_addons w)
            ++ String ":" (String " " (result_text e))).
  rewrite (split_fields_app ":" _ _ (label_prefix_clean (selected_addons w))).
  cbn [item0 hd tl]. split; [reflexivity|].
  unfold join, split. pose proof (concat_fields ":" (String " " (result_text e))) as HC.
  destruct (split_fields ":" (String " " (result_text e))). exact HC.
Qed.
